(** * Surgeon-site backend: request handlers of [main.py] and the schemas of
    [schemas.py], embedded in Rocq.

    Python values are modelled as the interpreter has them: [float] is IEEE 754
    binary64 (Rocq's primitive floats, specified by [SpecFloat]), [int] is [Z],
    [str] is a sequence of Unicode code points, a [dict] with string keys is a
    [gmap].  Handlers return either a value or the exception they raise. *)

From Stdlib Require Import ZArith NArith Bool Ascii String Floats Lia.
From stdpp Require Import base option list countable gmap.

Set Default Proof Using "Type".
(* Decimal float literals denote the nearest binary64, as in Python. *)
Set Warnings "-inexact-float".

(** ** Python strings *)

(** A Python [str] is a sequence of code points; slicing ([s[:50]]) and [len]
    count code points, not bytes. *)
Abbreviation pystr := (list N).

(** Source literals are written in UTF-8; [utf8_decode] turns the bytes of a
    literal into its code points. [acc] holds the bits of a sequence under way
    and [need] the number of continuation bytes still expected. *)
Fixpoint utf8_decode (bs : list N) (acc : N) (need : nat) : pystr :=
  match bs with
  | [] => []
  | b :: bs' =>
      if (b <? 128)%N then b :: utf8_decode bs' 0%N 0%nat
      else if (b <? 192)%N then
        let acc' := (acc * 64 + (b - 128))%N in
        match need with
        | 0%nat => utf8_decode bs' 0%N 0%nat
        | 1%nat => acc' :: utf8_decode bs' 0%N 0%nat
        | S n => utf8_decode bs' acc' n
        end
      else if (b <? 224)%N then utf8_decode bs' (b - 192)%N 1%nat
      else if (b <? 240)%N then utf8_decode bs' (b - 224)%N 2%nat
      else utf8_decode bs' (b - 240)%N 3%nat
  end.

Definition py (s : string) : pystr :=
  utf8_decode (map N_of_ascii (list_ascii_of_string s)) 0%N 0%nat.
Arguments py : simpl never.

(** [str.lower] on the ASCII range, which is all the entity class names use. *)
Definition lower (s : pystr) : pystr :=
  map (fun c => if ((65 <=? c) && (c <=? 90))%N then (c + 32)%N else c) s.

(** ** Python floats *)

(** [round(x, 1)] for a float, as CPython computes it: the exact binary value
    is rounded to one decimal digit (ties to even), and the decimal result is
    converted back to the nearest binary64.  Zeros, infinities and NaN round
    to themselves. *)
Definition round_half_even (num den : Z) : Z :=
  let q := (num / den)%Z in
  let r := (num mod den)%Z in
  match (2 * r ?= den)%Z with
  | Lt => q
  | Gt => (q + 1)%Z
  | Eq => if Z.even q then q else (q + 1)%Z
  end.

(** The binary64 nearest to [(-1)^s * n / d], for [n >= 0] and [d > 0]. *)
Definition float_of_ratio (s : bool) (n d : Z) : float :=
  SF2Prim
    match n with
    | Z0 => S754_zero s
    | _ =>
        let '(q, e, l) := SFdiv_core_binary prec emax n 0 d 0 in
        binary_round_aux prec emax s q e l
    end.

Definition round1 (x : float) : float :=
  match Prim2SF x with
  | S754_finite s m e =>
      let tenths :=
        if (0 <=? e)%Z then (10 * Z.pos m * 2 ^ e)%Z
        else round_half_even (10 * Z.pos m) (2 ^ (- e)) in
      float_of_ratio s tenths 10
  | _ => x
  end.

(** [x] is a zero, a finite number or an infinity whose sign bit is [s]. *)
Definition signed (s : bool) (x : spec_float) : Prop :=
  match x with
  | S754_zero s' | S754_infinity s' | S754_finite s' _ _ => s' = s
  | S754_nan => False
  end.

(** ** Outcome of a request *)

(** What a handler (or the framework around it) raises. [HTTPException] is
    FastAPI's; [RequestValidationError] and [ResponseValidationError] are
    raised by FastAPI when the declared request or response model rejects a
    value; [ZeroDivisionError] is the interpreter's; [ValueError] is what
    rendering the answer as JSON raises on a float that is infinite or NaN. *)
Inductive Raised : Type :=
| HTTPException (status_code : Z) (detail : pystr)
| RequestValidationError
| ResponseValidationError
| ZeroDivisionError
| ValueError.

Inductive Outcome (A : Type) : Type :=
| Returns (a : A)
| Raises (e : Raised).
Arguments Returns {A} a.
Arguments Raises {A} e.

(** The HTTP status FastAPI answers an outcome with: the status of an
    [HTTPException], 422 for a request validation error, 500 for any
    exception it has no handler for, and 200 for a value that is served.  For
    a value a handler returns this is the status only if the value is served
    as it is, that is if it passes the response model of the route, when one
    is declared, and renders as JSON; the served routes [post_api_bmi] and
    [get_api_surgeries] below include these two steps. *)
Definition status {A} (o : Outcome A) : Z :=
  match o with
  | Returns _ => 200
  | Raises (HTTPException c _) => c
  | Raises RequestValidationError => 422
  | Raises ResponseValidationError => 500
  | Raises ZeroDivisionError => 500
  | Raises ValueError => 500
  end.

(** ** BMI calculator *)

Record BMIQuery := { height_cm : float; weight_kg : float }.
Record BMIResult := { bmi : float; category : pystr }.

Definition underweight : pystr := py "Недостаточная масса".
Definition normal : pystr := py "Норма".
Definition overweight : pystr := py "Избыточная масса".
Definition obesity_I : pystr := py "Ожирение I степени".
Definition obesity_II : pystr := py "Ожирение II степени".
Definition obesity_III : pystr := py "Ожирение III степени".

Definition labels : list pystr :=
  [underweight; normal; overweight; obesity_I; obesity_II; obesity_III].

Definition _bmi_category (bmi : float) : pystr :=
  if (bmi <? 18.5)%float then underweight
  else if (bmi <? 25)%float then normal
  else if (bmi <? 30)%float then overweight
  else if (bmi <? 35)%float then obesity_I
  else if (bmi <? 40)%float then obesity_II
  else obesity_III.

(** Python's [/] on floats raises [ZeroDivisionError] when the divisor is
    zero (of either sign) and is the IEEE division otherwise. *)
Definition truediv (x y : float) : Outcome float :=
  if (y =? 0)%float then Raises ZeroDivisionError else Returns (x / y)%float.

Definition rejected : Outcome BMIResult :=
  Raises (HTTPException 400 (py "Height must be greater than 0")).

Definition bmi_calc (data : BMIQuery) : Outcome BMIResult :=
  let h_m := (height_cm data / 100.0)%float in
  if (h_m <=? 0)%float then rejected
  else
    match truediv (weight_kg data) (h_m * h_m)%float with
    | Raises e => Raises e
    | Returns bmi => Returns {| bmi := round1 bmi; category := _bmi_category bmi |}
    end.

(** [POST /api/bmi] as it is served: the dict the handler returns is rendered
    with [json.dumps(..., allow_nan=False)], which raises [ValueError] when
    the bmi is infinite or NaN (the category is a string and always renders);
    what the handler raises goes through. *)
Definition post_api_bmi (data : BMIQuery) : Outcome BMIResult :=
  match bmi_calc data with
  | Returns r => if is_finite (bmi r) then Returns r else Raises ValueError
  | Raises e => Raises e
  end.


(** ** Documents and schemas *)

(** The values a JSON body or a stored document holds at a field. *)
Inductive Value : Type :=
| VNone
| VBool (b : bool)
| VInt (n : Z)
| VFloat (x : float)
| VStr (s : pystr).

(** A document (a Mongo document, a parsed JSON object): a [dict] keyed by
    field name. *)
Abbreviation Doc := (gmap (list N) Value).

(** [d.get(key)] and [d.get(key, default)]. *)
Definition get (d : Doc) (key : pystr) : Value := default VNone (d !! key).
Definition get_or (d : Doc) (key : pystr) (dflt : Value) : Value :=
  default dflt (d !! key).

Definition of_optional (o : option pystr) : Value :=
  match o with Some s => VStr s | None => VNone end.

(** The entity classes of [schemas.py]; a collection is named after the
    lowercased class name. *)
Inductive Entity := Testimonial | BeforeAfter | ContactMessage | Surgery | DoctorProfile.

Definition __name__ (c : Entity) : pystr :=
  match c with
  | Testimonial => py "Testimonial"
  | BeforeAfter => py "BeforeAfter"
  | ContactMessage => py "ContactMessage"
  | Surgery => py "Surgery"
  | DoctorProfile => py "DoctorProfile"
  end.

Definition collection_name (c : Entity) : pystr := lower (__name__ c).

(** The validators of pydantic's primitive types are not part of the
    repository and differ between pydantic versions and modes (which inputs
    are coerced); they are left as an interface, of which only what every
    version does is required: a [str] is a valid string, an [int] a valid
    integer, and [None] is not a string. *)
Class Pydantic : Type := {
  validate_str : Value -> option pystr;
  validate_int : Value -> option Z;
  validate_str_VStr : forall s, validate_str (VStr s) = Some s;
  validate_str_VNone : validate_str VNone = None;
  validate_int_VInt : forall n, validate_int (VInt n) = Some n;
}.

(** Strict mode: no coercion at all. *)
Definition strict_str (v : Value) : option pystr :=
  match v with VStr s => Some s | _ => None end.
Definition strict_int (v : Value) : option Z :=
  match v with VInt n => Some n | _ => None end.

Definition strict : Pydantic :=
  {| validate_str := strict_str;
     validate_int := strict_int;
     validate_str_VStr := fun _ => eq_refl;
     validate_str_VNone := eq_refl;
     validate_int_VInt := fun _ => eq_refl |}.

Section Fields.
Context `{Pydantic} {A : Type} (validate : Value -> option A).

(** A required field ([Field(...)] or no default). *)
Definition required (body : Doc) (key : pystr) : option A :=
  body !! key ≫= validate.

(** An [Optional[...]] field with default [None]. *)
Definition optional (body : Doc) (key : pystr) : option (option A) :=
  match body !! key with
  | None | Some VNone => Some None
  | Some v => Some <$> validate v
  end.

(** A field with a default, used when the field is omitted. *)
Definition defaulted (dflt : A) (body : Doc) (key : pystr) : option A :=
  match body !! key with
  | None => Some dflt
  | Some v => validate v
  end.
End Fields.

Module TestimonialModel.
Record t := {
  name : pystr;
  procedure : option pystr;
  rating : Z;
  text : pystr;
  city : option pystr;
}.

(** [rating: int = Field(5, ge=1, le=5)]. *)
Definition rating_ok (r : Z) : bool := ((1 <=? r) && (r <=? 5))%Z.

Definition validate `{Pydantic} (body : Doc) : option t :=
  n ← required validate_str body (py "name");
  p ← optional validate_str body (py "procedure");
  r ← defaulted validate_int 5%Z body (py "rating");
  _ ← guard (rating_ok r = true);
  x ← required validate_str body (py "text");
  c ← optional validate_str body (py "city");
  Some {| name := n; procedure := p; rating := r; text := x; city := c |}.

Definition model_dump (m : t) : Doc :=
  <[py "name" := VStr (name m)]>
  (<[py "procedure" := of_optional (procedure m)]>
  (<[py "rating" := VInt (rating m)]>
  (<[py "text" := VStr (text m)]>
  (<[py "city" := of_optional (city m)]> ∅)))).
End TestimonialModel.

Module ContactMessageModel.
Record t := {
  name : pystr;
  email : option pystr;
  phone : option pystr;
  message : pystr;
}.

Definition model_dump (m : t) : Doc :=
  <[py "name" := VStr (name m)]>
  (<[py "email" := of_optional (email m)]>
  (<[py "phone" := of_optional (phone m)]>
  (<[py "message" := VStr (message m)]> ∅))).
End ContactMessageModel.

Module SurgeryModel.
Record t := {
  name : pystr;
  type : pystr;
  description : option pystr;
}.
End SurgeryModel.

(** A validated model instance, as handed to [create_document]. *)
Inductive Model : Type :=
| OfTestimonial (m : TestimonialModel.t)
| OfContactMessage (m : ContactMessageModel.t).

Definition class_of (m : Model) : Entity :=
  match m with
  | OfTestimonial _ => Testimonial
  | OfContactMessage _ => ContactMessage
  end.

Definition model_dump (m : Model) : Doc :=
  match m with
  | OfTestimonial x => TestimonialModel.model_dump x
  | OfContactMessage x => ContactMessageModel.model_dump x
  end.

(** ** The document store gateway *)

(** What a call into the store does: it completes with a value, or raises an
    exception [e], of which the handlers only use [str(e)]. *)
Inductive StoreResult (A : Type) : Type :=
| Done (a : A)
| Failed (str_e : pystr).
Arguments Done {A} a.
Arguments Failed {A} str_e.

(** [database.py] is not part of the sources: the handlers are written
    against its interface. [Store] is the state behind the handle [db];
    [get_documents(collection, limit=...)] and [create_document(collection,
    data)] are the two gateway functions, [list_collection_names] is the
    method of the handle the diagnostic probe calls. *)
Class Gateway (Store : Type) : Type := {
  get_documents : Store -> pystr -> option Z -> Store * StoreResult (list Doc);
  create_document : Store -> pystr -> Model -> Store * StoreResult pystr;
  list_collection_names : Store -> Store * StoreResult (list pystr);
}.

(** ** Handlers of [main.py] *)

Record SurgeryDict := {
  sd_name : Value;
  sd_type : Value;
  sd_description : Value;
}.

Record TestimonialDict := {
  td_name : Value;
  td_procedure : Value;
  td_rating : Value;
  td_text : Value;
  td_city : Value;
}.

Record BeforeAfterDict := {
  ba_patient_code : Value;
  ba_procedure : Value;
  ba_weight_before : Value;
  ba_weight_after : Value;
  ba_description : Value;
  ba_image_before_url : Value;
  ba_image_after_url : Value;
}.

Record Created := { created_id : pystr; created_ok : bool }.

(** [{"ok": ..., "stored": ...}] with the key ["id"] present or not. *)
Record ContactResult := {
  contact_ok : bool;
  contact_id : option pystr;
  contact_stored : bool;
}.

Record Diagnostics := {
  backend : pystr;
  database : pystr;
  database_url : option pystr;
  database_name : option pystr;
  connection_status : pystr;
  collections : list pystr;
}.

Definition surgery (name type description : string) : SurgeryDict :=
  {| sd_name := VStr (py name);
     sd_type := VStr (py type);
     sd_description := VStr (py description) |}.

Definition default_surgeries : list SurgeryDict :=
  [ surgery "Лапароскопическое рукавное гастрошунтирование" "bariatric"
      "Снижение веса за счёт уменьшения объёма желудка";
    surgery "Гастрошунтирование по Ру" "bariatric"
      "Комбинированная методика для стойкого снижения массы тела";
    surgery "Установка внутрижелудочного баллона" "bariatric"
      "Временная методика для коррекции веса";
    surgery "Холецистэктомия (удаление желчного пузыря)" "general"
      "Лапароскопическое удаление при желчнокаменной болезни";
    surgery "Грыжесечение (паховые, пупочные, вентральные)" "general"
      "Современные сетчатые импланты и надёжная фиксация";
    surgery "Аппендэктомия" "general"
      "Малоинвазивное удаление аппендикса" ].

Definition surgery_dict (i : Doc) : SurgeryDict :=
  {| sd_name := get i (py "name");
     sd_type := get i (py "type");
     sd_description := get i (py "description") |}.

Definition testimonial_dict (i : Doc) : TestimonialDict :=
  {| td_name := get i (py "name");
     td_procedure := get i (py "procedure");
     td_rating := get_or i (py "rating") (VInt 5);
     td_text := get i (py "text");
     td_city := get i (py "city") |}.

Definition before_after_dict (i : Doc) : BeforeAfterDict :=
  {| ba_patient_code := get i (py "patient_code");
     ba_procedure := get i (py "procedure");
     ba_weight_before := get i (py "weight_before");
     ba_weight_after := get i (py "weight_after");
     ba_description := get i (py "description");
     ba_image_before_url := get i (py "image_before_url");
     ba_image_after_url := get i (py "image_after_url") |}.

(** The environment variables [os.getenv] reads. *)
Abbreviation Environ := (gmap (list N) (list N)).

(** Truth value of [os.getenv(key)]: set and not empty. *)
Definition truthy (v : option pystr) : bool :=
  match v with
  | Some (_ :: _) => true
  | _ => false
  end.

(** [os.getenv(key) or dflt]. *)
Definition or_else (v : option pystr) (dflt : pystr) : pystr :=
  if truthy v then default dflt v else dflt.

Section Handlers.
Context {Store : Type} `{!Gateway Store}.

(** A handler runs with the module-level handle [db] ([None] when no store
    is configured) and leaves the store behind it in a new state. *)
Definition Handler (A : Type) : Type := option Store -> Outcome A * option Store.

(** [try: ... except Exception: pass], then the defaults. *)
Definition list_surgeries : Handler (list SurgeryDict) := fun db =>
  match db with
  | None => (Returns default_surgeries, None)
  | Some s =>
      let '(s', r) := get_documents s (py "surgery") None in
      match r with
      | Done items =>
          match surgery_dict <$> items with
          | [] => (Returns default_surgeries, Some s')
          | items => (Returns items, Some s')
          end
      | Failed _ => (Returns default_surgeries, Some s')
      end
  end.

Definition get_testimonials (limit : option Z) : Handler (list TestimonialDict) := fun db =>
  let limit := default 12%Z limit in
  match db with
  | None => (Returns [], None)
  | Some s =>
      let '(s', r) := get_documents s (py "testimonial") (Some limit) in
      match r with
      | Done items => (Returns (testimonial_dict <$> items), Some s')
      | Failed str_e => (Raises (HTTPException 500 str_e), Some s')
      end
  end.

Definition create_testimonial (payload : TestimonialModel.t) : Handler Created := fun db =>
  match db with
  | None => (Raises (HTTPException 500 (py "Database not available")), None)
  | Some s =>
      let '(s', r) := create_document s (py "testimonial") (OfTestimonial payload) in
      match r with
      | Done _id => (Returns {| created_id := _id; created_ok := true |}, Some s')
      | Failed str_e => (Raises (HTTPException 500 str_e), Some s')
      end
  end.

Definition get_before_after (limit : option Z) : Handler (list BeforeAfterDict) := fun db =>
  let limit := default 12%Z limit in
  match db with
  | None => (Returns [], None)
  | Some s =>
      let '(s', r) := get_documents s (py "beforeafter") (Some limit) in
      match r with
      | Done items => (Returns (before_after_dict <$> items), Some s')
      | Failed str_e => (Raises (HTTPException 500 str_e), Some s')
      end
  end.

Definition send_contact (payload : ContactMessageModel.t) : Handler ContactResult := fun db =>
  match db with
  | None =>
      (Returns {| contact_ok := true; contact_id := None; contact_stored := false |}, None)
  | Some s =>
      let '(s', r) := create_document s (py "contactmessage") (OfContactMessage payload) in
      match r with
      | Done _id =>
          (Returns {| contact_ok := true; contact_id := Some _id; contact_stored := true |},
           Some s')
      | Failed str_e => (Raises (HTTPException 500 str_e), Some s')
      end
  end.

(** The probe fills [response] step by step; the inner [try] guards the one
    call into the store, and nothing else in the outer [try] can raise. *)
Definition test_database (environ : Environ) : Handler Diagnostics := fun db =>
  let response :=
    {| backend := py "✅ Running";
       database := py "❌ Not Available";
       database_url := None;
       database_name := None;
       connection_status := py "Not Connected";
       collections := [] |} in
  match db with
  | Some s =>
      let response :=
        {| backend := backend response;
           database := py "✅ Available";
           database_url :=
             Some (if truthy (environ !! py "DATABASE_URL")
                   then py "✅ Set" else py "❌ Not Set");
           database_name :=
             Some (or_else (environ !! py "DATABASE_NAME") (py "❌ Not Set"));
           connection_status := py "Connected";
           collections := collections response |} in
      let '(s', r) := list_collection_names s in
      match r with
      | Done names =>
          (Returns
             {| backend := backend response;
                database := py "✅ Connected & Working";
                database_url := database_url response;
                database_name := database_name response;
                connection_status := connection_status response;
                collections := take 10 names |},
           Some s')
      | Failed str_e =>
          (Returns
             {| backend := backend response;
                database := py "⚠️  Connected but Error: " ++ take 50 str_e;
                database_url := database_url response;
                database_name := database_name response;
                connection_status := connection_status response;
                collections := collections response |},
           Some s')
      end
  | None =>
      (Returns
         {| backend := backend response;
            database := py "⚠️  Available but not initialized";
            database_url := database_url response;
            database_name := database_name response;
            connection_status := connection_status response;
            collections := collections response |},
       None)
  end.
End Handlers.

(** ** The endpoints as FastAPI serves them *)

Module SurgeryResponse.
(** The declared [response_model=List[Surgery]]: every returned dict must
    validate as a [Surgery] ([name] and [type] strings, [description] a
    string or [None]). *)
Definition validate `{Pydantic} (d : SurgeryDict) : option SurgeryModel.t :=
  n ← validate_str (sd_name d);
  t ← validate_str (sd_type d);
  d ← match sd_description d with
      | VNone => Some None
      | v => Some <$> validate_str v
      end;
  Some {| SurgeryModel.name := n; SurgeryModel.type := t; SurgeryModel.description := d |}.
End SurgeryResponse.

Section Endpoints.
Context `{Pydantic} {Store : Type} `{!Gateway Store}.

(** [GET /api/surgeries]: the handler's return value goes through the
    response model; a value it rejects is a [ResponseValidationError]. *)
Definition get_api_surgeries : Handler (list SurgeryModel.t) := fun db =>
  let '(o, db') := list_surgeries db in
  match o with
  | Returns items =>
      match mapM SurgeryResponse.validate items with
      | Some l => (Returns l, db')
      | None => (Raises ResponseValidationError, db')
      end
  | Raises e => (Raises e, db')
  end.

(** [POST /api/testimonials]: the body is validated against [Testimonial]
    before the handler is called. *)
Definition post_api_testimonials (body : Doc) : Handler Created := fun db =>
  match TestimonialModel.validate body with
  | None => (Raises RequestValidationError, db)
  | Some payload => create_testimonial payload db
  end.
End Endpoints.

(** ** Recording the store accesses *)

Inductive Access : Type :=
| Fetch (collection : pystr) (limit : option Z)
| Insert (collection : pystr) (data : Model)
| ListNames.

(** Any gateway, with every call into it appended to a log. *)
Definition traced {Store : Type} (G : Gateway Store) : Gateway (Store * list Access) :=
  {| get_documents := fun '(s, log) c l =>
       let '(s', r) := get_documents s c l in ((s', log ++ [Fetch c l]), r);
     create_document := fun '(s, log) c m =>
       let '(s', r) := create_document s c m in ((s', log ++ [Insert c m]), r);
     list_collection_names := fun '(s, log) =>
       let '(s', r) := list_collection_names s in ((s', log ++ [ListNames]), r) |}.

(** The accesses a handler makes when run on the handle [db], read off the
    log the traced store ends with. *)
Definition accesses {Store A : Type}
    (h : option (Store * list Access) -> Outcome A * option (Store * list Access))
    (db : option Store) : list Access :=
  match snd (h ((fun s => (s, [])) <$> db)) with
  | Some (_, log) => log
  | None => []
  end.

(** A configured store on which every call raises. *)
Definition broken (str_e : pystr) : Gateway unit :=
  {| get_documents := fun s _ _ => (s, Failed str_e);
     create_document := fun s _ _ => (s, Failed str_e);
     list_collection_names := fun s => (s, Failed str_e) |}.

(** A configured store with fixed contents: every fetch yields [docs] (up to
    the limit), every insert is acknowledged with the identifier ["1"]. *)
Definition canned (docs : list Doc) : Gateway unit :=
  {| get_documents := fun s _ limit =>
       (s, Done match limit with
                | Some n => take (Z.to_nat n) docs
                | None => docs
                end);
     create_document := fun s _ _ => (s, Done (py "1"));
     list_collection_names := fun s => (s, Done [py "surgery"]) |}.

(** ** A store that follows the specification *)

(** The decimal digits of a number, as a string. *)
Fixpoint digits (d : Decimal.uint) : pystr :=
  match d with
  | Decimal.Nil => []
  | Decimal.D0 d => 48%N :: digits d
  | Decimal.D1 d => 49%N :: digits d
  | Decimal.D2 d => 50%N :: digits d
  | Decimal.D3 d => 51%N :: digits d
  | Decimal.D4 d => 52%N :: digits d
  | Decimal.D5 d => 53%N :: digits d
  | Decimal.D6 d => 54%N :: digits d
  | Decimal.D7 d => 55%N :: digits d
  | Decimal.D8 d => 56%N :: digits d
  | Decimal.D9 d => 57%N :: digits d
  end.

(** Modelled from the spec: the document store gateway ([database.py], not
    among the sources).  Insert persists the validated record in the named
    collection and returns a generated unique identifier; fetch returns up to
    the given number of records of the collection in insertion order; both
    fail with a store error when the connection is unusable. *)
Record SpecStore := {
  stored : gmap (list N) (list Doc);
  inserted : N;
  unusable : option pystr;
}.

(** Modelled from the spec: the records of a collection, in the store's
    natural (insertion) order. *)
Definition records (st : SpecStore) (collection : pystr) : list Doc :=
  default [] (stored st !! collection).

(** Modelled from the spec: fetch, "given a collection name and a maximum
    count, return up to that many stored records in the store's natural
    order; fails with a store error if unusable". *)
Definition spec_fetch (st : SpecStore) (collection : pystr) (limit : option Z)
    : SpecStore * StoreResult (list Doc) :=
  match unusable st with
  | Some e => (st, Failed e)
  | None =>
      (st, Done match limit with
                | Some n => take (Z.to_nat n) (records st collection)
                | None => records st collection
                end)
  end.

(** Modelled from the spec: insert, "given a collection name and a validated
    record, persist it and return a generated unique identifier; fails with a
    store error if the underlying connection is unusable".  The identifier is
    the count of earlier inserts, in decimal. *)
Definition spec_insert (st : SpecStore) (collection : pystr) (data : Model)
    : SpecStore * StoreResult pystr :=
  match unusable st with
  | Some e => (st, Failed e)
  | None =>
      ({| stored := <[collection := records st collection ++ [model_dump data]]> (stored st);
          inserted := N.succ (inserted st);
          unusable := None |},
       Done (digits (N.to_uint (inserted st))))
  end.

(** Modelled from the spec: the metadata read of the probe, the names of
    the collections. *)
Definition spec_names (st : SpecStore) : SpecStore * StoreResult (list pystr) :=
  match unusable st with
  | Some e => (st, Failed e)
  | None => (st, Done (fst <$> map_to_list (stored st)))
  end.

(** Modelled from the spec: the gateway made of the three operations. *)
Definition spec_gateway : Gateway SpecStore :=
  {| get_documents := spec_fetch;
     create_document := spec_insert;
     list_collection_names := spec_names |}.

Definition empty_store : SpecStore :=
  {| stored := ∅; inserted := 0; unusable := None |}.

(** ** What a created testimonial looks like when listed *)

(** The validated payload keeps the fields of the submitted body: strings and
    integers as submitted, an omitted rating as 5, an omitted optional field
    as [None]. *)
Definition submitted (body : Doc) (p : TestimonialModel.t) : Prop :=
  (forall v, body !! py "name" = Some (VStr v) -> TestimonialModel.name p = v) /\
  (forall v, body !! py "text" = Some (VStr v) -> TestimonialModel.text p = v) /\
  (forall r, body !! py "rating" = Some (VInt r) -> TestimonialModel.rating p = r) /\
  (body !! py "rating" = None -> TestimonialModel.rating p = 5%Z) /\
  (forall v, body !! py "procedure" = Some (VStr v) -> TestimonialModel.procedure p = Some v) /\
  (body !! py "procedure" = None -> TestimonialModel.procedure p = None) /\
  (forall v, body !! py "city" = Some (VStr v) -> TestimonialModel.city p = Some v) /\
  (body !! py "city" = None -> TestimonialModel.city p = None).

(** The entry of the list for a payload. *)
Definition listed (p : TestimonialModel.t) : TestimonialDict :=
  {| td_name := VStr (TestimonialModel.name p);
     td_procedure := of_optional (TestimonialModel.procedure p);
     td_rating := VInt (TestimonialModel.rating p);
     td_text := VStr (TestimonialModel.text p);
     td_city := of_optional (TestimonialModel.city p) |}.

(** ** Sample requests and stores *)

(** A stored surgery document that has no ["name"]. *)
Definition nameless : Doc := {[ py "type" := VStr (py "general") ]}.

Definition hernia : Doc :=
  <[py "name" := VStr (py "Hernia repair")]> (<[py "type" := VStr (py "general")]> ∅).

(** A request body with ["name"] and ["text"], and ["rating"] when given. *)
Definition review (rating : option Z) : Doc :=
  let body : Doc :=
    <[py "name" := VStr (py "A. B.")]> (<[py "text" := VStr (py "Thank you")]> ∅) in
  match rating with
  | Some r => <[py "rating" := VInt r]> body
  | None => body
  end.

Definition enquiry : ContactMessageModel.t :=
  {| ContactMessageModel.name := py "A. B.";
     ContactMessageModel.email := None;
     ContactMessageModel.phone := None;
     ContactMessageModel.message := py "Please call back" |}.

(** ** The contact endpoint as FastAPI serves it *)

Section ContactEndpoint.
(** [EmailStr] is checked by a library outside the repository; its validator
    is a parameter. *)
Context `{Pydantic} (validate_email : Value -> option pystr).
Context {Store : Type} `{!Gateway Store}.

(** [ContactMessage]: [name] and [message] are required strings, [email] an
    optional e-mail address, [phone] an optional string. *)
Definition validate_contact (body : Doc) : option ContactMessageModel.t :=
  n ← required validate_str body (py "name");
  e ← optional validate_email body (py "email");
  p ← optional validate_str body (py "phone");
  m ← required validate_str body (py "message");
  Some {| ContactMessageModel.name := n;
          ContactMessageModel.email := e;
          ContactMessageModel.phone := p;
          ContactMessageModel.message := m |}.

(** [POST /api/contact]: the body is validated against [ContactMessage]
    before the handler is called. *)
Definition post_api_contact (body : Doc) : Handler ContactResult := fun db =>
  match validate_contact body with
  | None => (Raises RequestValidationError, db)
  | Some payload => send_contact payload db
  end.
End ContactEndpoint.

(** ** Shapes of documents *)

(** The field is absent from the document, or holds [None]. *)
Definition lacks (d : Doc) (key : pystr) : Prop :=
  d !! key = None \/ d !! key = Some VNone.

(** A stored document that reads as a [Surgery]: [name] and [type] are
    strings, [description] is a string, [None] or absent. *)
Definition reads_as (d : Doc) (m : SurgeryModel.t) : Prop :=
  d !! py "name" = Some (VStr (SurgeryModel.name m)) /\
  d !! py "type" = Some (VStr (SurgeryModel.type m)) /\
  get d (py "description") = of_optional (SurgeryModel.description m).

(** * Properties *)

(** ** Order and sign of binary64 numbers *)

Ltac cmp_cases :=
  change (Pos.compare_cont Eq) with Pos.compare in *;
  repeat match goal with
  | H : context [Z.compare ?a ?b] |- _ => destruct (Z.compare_spec a b); simpl in H
  | H : context [Pos.compare ?a ?b] |- _ => destruct (Pos.compare_spec a b); simpl in H
  | |- context [Z.compare ?a ?b] => destruct (Z.compare_spec a b); simpl
  | |- context [Pos.compare ?a ?b] => destruct (Pos.compare_spec a b); simpl
  end;
  try (reflexivity || discriminate || lia).

Section Order.
Implicit Types x y z : spec_float.

Lemma SFcompare_flip x y : SFcompare y x = CompOpp <$> SFcompare x y.
Proof.
  destruct x as [[]|[]| |[] m1 e1], y as [[]|[]| |[] m2 e2]; simpl; try reflexivity.
  all: cmp_cases.
Qed.

Lemma SFltb_trans x y z :
  SFltb x y = true -> SFltb y z = true -> SFltb x z = true.
Proof.
  unfold SFltb.
  destruct x as [[]|[]| |[] m1 e1], y as [[]|[]| |[] m2 e2], z as [[]|[]| |[] m3 e3];
    simpl; try (reflexivity || discriminate); intros H1 H2; cmp_cases.
Qed.

Lemma SFleb_not_ltb x y : SFleb x y = true -> SFltb y x = false.
Proof.
  unfold SFltb, SFleb. rewrite (SFcompare_flip x y).
  destruct (SFcompare x y) as [[]|]; done.
Qed.

(** Among numbers (no NaN) the order is total. *)
Lemma SFltb_false_leb x y z :
  y <> S754_nan -> SFltb x y = false -> SFltb x z = true -> SFleb y x = true.
Proof.
  unfold SFltb, SFleb.
  destruct x as [[]|[]| |[] m1 e1], y as [[]|[]| |[] m2 e2], z as [[]|[]| |[] m3 e3];
    simpl; try (reflexivity || discriminate || congruence); intros _ H1 H2; cmp_cases.
Qed.

Lemma signed_true_ltb x m e :
  signed true x -> SFltb x (S754_finite false m e) = true.
Proof. by destruct x as [[]|[]| |[] m1 e1]. Qed.

Lemma signed_true_leb_zero x : signed true x -> SFleb x (S754_zero false) = true.
Proof. by destruct x as [[]|[]| |[] m1 e1]. Qed.
End Order.

Section Rounding.
Variables prec emax : Z.

Lemma iter_pos_invariant {A} (P : A -> Prop) (f : A -> A) :
  (forall a, P a -> P (f a)) -> forall n a, P a -> P (SpecFloat.iter_pos f n a).
Proof. intros Hf. induction n as [n IH|n IH|]; simpl; auto. Qed.

Lemma shr_1_nonneg mrs : (0 <= shr_m mrs)%Z -> (0 <= shr_m (shr_1 mrs))%Z.
Proof. destruct mrs as [[|[p|p|]|p] r s]; simpl; lia. Qed.

Lemma shr_nonneg mrs e n :
  (0 <= shr_m mrs)%Z -> (0 <= shr_m (fst (shr mrs e n)))%Z.
Proof.
  intros Hm. destruct n; simpl; try done.
  by apply (iter_pos_invariant (fun r => 0 <= shr_m r)%Z), Hm; apply shr_1_nonneg.
Qed.

Lemma shr_fexp_nonneg m e l :
  (0 <= m)%Z -> (0 <= shr_m (fst (shr_fexp prec emax m e l)))%Z.
Proof.
  intros Hm. unfold shr_fexp. apply shr_nonneg. by destruct l as [|[]].
Qed.

Lemma round_nearest_even_nonneg m l :
  (0 <= m)%Z -> (0 <= round_nearest_even m l)%Z.
Proof. destruct l as [|[]]; simpl; try destruct (Z.even m); lia. Qed.

(** Rounding keeps the sign and never yields NaN. *)
Lemma binary_round_aux_signed s m e l :
  (0 <= m)%Z -> signed s (binary_round_aux prec emax s m e l).
Proof.
  intros Hm. unfold binary_round_aux.
  pose proof (shr_fexp_nonneg m e l Hm) as H1.
  destruct (shr_fexp prec emax m e l) as [mrs' e']; simpl in H1.
  pose proof (shr_fexp_nonneg _ e' loc_Exact
                (round_nearest_even_nonneg _ (loc_of_shr_record mrs') H1)) as H2.
  destruct (shr_fexp prec emax _ e' loc_Exact) as [mrs'' e'']; simpl in H2.
  destruct (shr_m mrs''); [done| |lia].
  by destruct (_ <=? _)%Z.
Qed.

Lemma SFdiv_core_binary_nonneg m1 e1 m2 e2 :
  (0 <= m1)%Z -> (0 < m2)%Z ->
  (0 <= fst (fst (SFdiv_core_binary prec emax m1 e1 m2 e2)))%Z.
Proof.
  intros H1 H2. unfold SFdiv_core_binary.
  set (s := (e1 - e2 - _)%Z).
  set (m' := match s with Z0 => m1 | Z.pos _ => Z.shiftl m1 s | Z.neg _ => 0%Z end).
  assert (0 <= m')%Z as Hm'.
  { subst m'. destruct s; try lia. by apply Z.shiftl_nonneg. }
  change IntDef.Z.div_eucl with Z.div_eucl.
  pose proof (Z_div_mod m' m2 ltac:(lia)) as Hd.
  destruct (Z.div_eucl m' m2) as [q r]; simpl. nia.
Qed.

(** The sign of a quotient is the exclusive or of the signs, except for
    0/0 and inf/inf, which are NaN. *)
Lemma SFdiv_signed sx sy x y :
  signed sx x -> signed sy y ->
  (forall s, x = S754_zero s -> forall s', y <> S754_zero s') ->
  (forall s, x = S754_infinity s -> forall s', y <> S754_infinity s') ->
  signed (xorb sx sy) (SFdiv prec emax x y).
Proof.
  destruct x as [s1|s1| |s1 m1 e1], y as [s2|s2| |s2 m2 e2]; simpl;
    intros Hx Hy Hz Hi; try done; subst; try done.
  all: try (exfalso; first [by eapply Hz | by eapply Hi]).
  pose proof (SFdiv_core_binary_nonneg (Z.pos m1) e1 (Z.pos m2) e2
                ltac:(lia) ltac:(lia)) as Hq.
  destruct (SFdiv_core_binary _ _ _ _ _ _) as [[q e] l]; simpl in Hq.
  by apply binary_round_aux_signed.
Qed.

Lemma SFmul_signed sx sy x y :
  signed sx x -> signed sy y ->
  (forall s, x = S754_zero s -> forall s', y <> S754_infinity s') ->
  (forall s, x = S754_infinity s -> forall s', y <> S754_zero s') ->
  signed (xorb sx sy) (SFmul prec emax x y).
Proof.
  destruct x as [s1|s1| |s1 m1 e1], y as [s2|s2| |s2 m2 e2]; simpl;
    intros Hx Hy Hz Hi; try done; subst; try done.
  all: try (exfalso; first [by eapply Hz | by eapply Hi]).
  by apply binary_round_aux_signed.
Qed.
End Rounding.

Section Binary64.
Implicit Types x y z : float.
Local Open Scope float_scope.

Lemma ltb_trans x y z : (x <? y) = true -> (y <? z) = true -> (x <? z) = true.
Proof. rewrite !ltb_spec. apply SFltb_trans. Qed.

(** A band closed below and open above, read off two strict tests. *)
Lemma band_spec x a b :
  (a <=? a) = true ->
  (a <=? x) = true /\ (x <? b) = true <-> (x <? a) = false /\ (x <? b) = true.
Proof.
  rewrite !leb_spec, !ltb_spec. intros Ha. split; intros [H1 H2]; split; try done.
  - by apply SFleb_not_ltb.
  - eapply SFltb_false_leb; [|done..].
    intros E. rewrite E in Ha. done.
Qed.

Lemma div_100_nonpositive x : (x <=? 0) = true -> (x / 100 <=? 0) = true.
Proof.
  rewrite !leb_spec, div_spec.
  change (Prim2SF 0) with (S754_zero false).
  change (Prim2SF 100) with (S754_finite false 7036874417766400 (-46)).
  intros Hx.
  destruct (Prim2SF x) as [s|[]| |[] m e] eqn:E; try done.
  apply signed_true_leb_zero.
  by apply (SFdiv_signed _ _ true false).
Qed.

(** A positive height in centimetres is a non-negative height in metres. *)
Lemma div_100_positive x : (0 <? x) = true -> signed false (Prim2SF (x / 100)).
Proof.
  intros Hx. rewrite ltb_spec in Hx. rewrite div_spec.
  change (Prim2SF 0) with (S754_zero false) in *.
  change (Prim2SF 100) with (S754_finite false 7036874417766400 (-46)).
  destruct (Prim2SF x) as [s|[]| |[] m e] eqn:E; try done.
  by apply (SFdiv_signed _ _ false false).
Qed.

(** The quotient of a finite negative number by a positive one (finite or
    infinite) is negative, or a negative zero when it underflows. *)
Lemma negative_quotient x y :
  (neg_infinity <? x) = true -> (x <? 0) = true ->
  signed false (Prim2SF y) -> (y =? 0) = false ->
  signed true (Prim2SF (x / y)).
Proof.
  intros H1 H2 Hy Hy0.
  rewrite ltb_spec in H1, H2. rewrite FloatAxioms.eqb_spec in Hy0. rewrite div_spec.
  change (Prim2SF 0) with (S754_zero false) in *.
  change (Prim2SF neg_infinity) with (S754_infinity true) in *.
  apply (SFdiv_signed _ _ true false).
  - by destruct (Prim2SF x) as [s|[]| |[] m e].
  - done.
  - intros s Ex. by rewrite Ex in H2.
  - intros s Ex. rewrite Ex in H1, H2. by destruct s.
Qed.
End Binary64.

(** ** The BMI calculator *)

Section BMI.
Local Open Scope float_scope.

Lemma labels_NoDup : NoDup labels.
Proof. apply (bool_decide_unpack _). by vm_compute. Qed.

(** C2: the category is one of six distinct labels, chosen by bands that
    are closed below and open above: below 18.5 underweight, [18.5, 25)
    normal, [25, 30) overweight, [30, 35) obesity I, [35, 40) obesity II, and
    obesity III for everything that is not below 40; 25.0 itself is
    overweight. *)
Theorem bmi_category_bands (bmi : float) :
  NoDup labels /\
  _bmi_category bmi ∈ labels /\
  (_bmi_category bmi = underweight <-> (bmi <? 18.5) = true) /\
  (_bmi_category bmi = normal <-> (18.5 <=? bmi) = true /\ (bmi <? 25) = true) /\
  (_bmi_category bmi = overweight <-> (25 <=? bmi) = true /\ (bmi <? 30) = true) /\
  (_bmi_category bmi = obesity_I <-> (30 <=? bmi) = true /\ (bmi <? 35) = true) /\
  (_bmi_category bmi = obesity_II <-> (35 <=? bmi) = true /\ (bmi <? 40) = true) /\
  (_bmi_category bmi = obesity_III <-> (bmi <? 40) = false) /\
  _bmi_category 25 = overweight.
Proof.
  split; [exact labels_NoDup|].
  assert (_bmi_category 25 = overweight) as H25 by (by vm_compute).
  revert H25. generalize (_bmi_category 25). intros c25 H25.
  rewrite !band_spec by reflexivity.
  pose proof (ltb_trans bmi 18.5 25) as T1.
  pose proof (ltb_trans bmi 25 30) as T2.
  pose proof (ltb_trans bmi 30 35) as T3.
  pose proof (ltb_trans bmi 35 40) as T4.
  specialize (fun H => T1 H eq_refl). specialize (fun H => T2 H eq_refl).
  specialize (fun H => T3 H eq_refl). specialize (fun H => T4 H eq_refl).
  pose proof labels_NoDup as Hd.
  unfold _bmi_category, labels in *.
  revert Hd H25.
  generalize underweight normal overweight obesity_I obesity_II obesity_III.
  intros l1 l2 l3 l4 l5 l6 Hd H25.
  rewrite !NoDup_cons, !elem_of_cons in Hd.
  rewrite !elem_of_cons.
  destruct (bmi <? 18.5), (bmi <? 25), (bmi <? 30), (bmi <? 35), (bmi <? 40);
    try (by specialize (T1 eq_refl)); try (by specialize (T2 eq_refl));
    try (by specialize (T3 eq_refl)); try (by specialize (T4 eq_refl)).
  all: clear T1 T2 T3 T4; intuition congruence.
Qed.

(** The guard is on the height in metres: the request is rejected with 400
    exactly when [height_cm / 100.0 <= 0]. *)
Lemma bmi_calc_rejected_iff (data : BMIQuery) :
  bmi_calc data = rejected <-> (height_cm data / 100 <=? 0) = true.
Proof.
  unfold bmi_calc, truediv, rejected.
  destruct (height_cm data / 100 <=? 0); [done|].
  split; [|done]. by destruct (_ =? 0).
Qed.

(** Every height that is not positive is rejected, whatever the weight. *)
Lemma bmi_calc_rejects_nonpositive (data : BMIQuery) :
  (height_cm data <=? 0) = true -> bmi_calc data = rejected.
Proof. intros H. by apply bmi_calc_rejected_iff, div_100_nonpositive. Qed.

(** When neither the height in metres nor its square underflows to zero, the
    result is the quotient rounded to one decimal and its category. *)
Lemma bmi_calc_returns (data : BMIQuery) :
  let h_m := height_cm data / 100 in
  let q := weight_kg data / (h_m * h_m) in
  (h_m <=? 0) = false -> (h_m * h_m =? 0) = false ->
  bmi_calc data = Returns {| bmi := round1 q; category := _bmi_category q |}.
Proof. intros h_m q H1 H2. unfold bmi_calc, truediv. fold h_m. by rewrite H1, H2. Qed.

(** The only other outcome is the division by a square that underflowed. *)
Lemma bmi_calc_raises (data : BMIQuery) (e : Raised) :
  bmi_calc data = Raises e ->
  e = HTTPException 400 (py "Height must be greater than 0") /\
    (height_cm data / 100 <=? 0) = true
  \/ e = ZeroDivisionError /\
    (height_cm data / 100 * (height_cm data / 100) =? 0) = true.
Proof.
  unfold bmi_calc, truediv, rejected.
  destruct (height_cm data / 100 <=? 0); [left; split; congruence|].
  destruct (_ =? 0); [right; split; congruence|done].
Qed.

(** X4: the weight is not validated: with a height as above, a finite negative
    weight gives a quotient that is negative (or a negative zero), and the
    category is underweight. *)
Lemma bmi_calc_negative_weight (data : BMIQuery) :
  let h_m := height_cm data / 100 in
  let q := weight_kg data / (h_m * h_m) in
  (0 <? height_cm data) = true ->
  (h_m <=? 0) = false -> (h_m * h_m =? 0) = false ->
  (neg_infinity <? weight_kg data) = true -> (weight_kg data <? 0) = true ->
  bmi_calc data = Returns {| bmi := round1 q; category := underweight |} /\
  (q <=? 0) = true /\ (0 <? q) = false.
Proof.
  intros h_m q Hh H1 H2 Hw1 Hw2.
  assert (signed true (Prim2SF q)) as Hq.
  { apply negative_quotient; try done.
    unfold h_m. rewrite mul_spec.
    pose proof (div_100_positive _ Hh) as Hs.
    apply (SFmul_signed _ _ false false); try done.
    - intros s ->. done.
    - intros s ->. done. }
  assert ((q <=? 0) = true) as Hle.
  { rewrite leb_spec. by apply signed_true_leb_zero. }
  split; [|split; [done|]].
  - rewrite (bmi_calc_returns data H1 H2). fold h_m q. f_equal. f_equal.
    unfold _bmi_category.
    rewrite ltb_spec.
    change (Prim2SF 18.5) with (S754_finite false 5207287069147136 (-48)).
    by rewrite signed_true_ltb.
  - rewrite ltb_spec. apply SFleb_not_ltb. by rewrite <- leb_spec.
Qed.

(** [round(x, 1)]: ties go to the even digit, and what counts is the binary
    value, so that 0.35 (just below 0.35) rounds down. *)
Example round1_samples :
  round1 0.25 = 0.2 /\ round1 0.75 = 0.8 /\ round1 0.35 = 0.3 /\
  round1 24.221453287197235 = 24.2 /\ round1 (-0.04) = (-0) /\
  round1 infinity = infinity.
Proof. repeat split; reflexivity. Qed.

Example bmi_170_70 :
  bmi_calc {| height_cm := 170; weight_kg := 70 |}
  = Returns {| bmi := 24.2; category := normal |}.
Proof. reflexivity. Qed.

Example bmi_negative_weight :
  bmi_calc {| height_cm := 170; weight_kg := -70 |}
  = Returns {| bmi := -24.2; category := underweight |}.
Proof. reflexivity. Qed.

(** C1 as amended: the request is rejected with 400 exactly when the
    height in metres, [height_cm / 100.0], is [<= 0]; that is so for every
    [height_cm <= 0], whatever the weight (and for positive heights so small
    that the division underflows to zero).  For every height whose value in
    metres is positive and has a non-zero square, the handler returns the
    quotient [weight_kg / (h_m * h_m)] rounded to one decimal, with its
    category; the endpoint answers 200 with it when the rounded bmi is
    finite, and 500 when it is infinite or NaN, which cannot be rendered as
    JSON. *)
Theorem bmi_calc_cases (data : BMIQuery) :
  let h_m := height_cm data / 100 in
  let q := weight_kg data / (h_m * h_m) in
  let answer := {| bmi := round1 q; category := _bmi_category q |} in
  (post_api_bmi data = rejected <-> (h_m <=? 0) = true) /\
  ((height_cm data <=? 0) = true ->
   post_api_bmi data = rejected /\ status (post_api_bmi data) = 400%Z) /\
  ((h_m <=? 0) = false -> (h_m * h_m =? 0) = false ->
   bmi_calc data = Returns answer /\
   (is_finite (round1 q) = true ->
    post_api_bmi data = Returns answer /\ status (post_api_bmi data) = 200%Z) /\
   (is_finite (round1 q) = false ->
    post_api_bmi data = Raises ValueError /\ status (post_api_bmi data) = 500%Z)).
Proof.
  intros h_m q answer. split; [|split].
  - unfold h_m. rewrite <- bmi_calc_rejected_iff. unfold post_api_bmi, rejected.
    destruct (bmi_calc data) as [r|e]; [|done].
    split; [|done]. by destruct (is_finite (bmi r)).
  - intros Hh. unfold post_api_bmi.
    by rewrite (bmi_calc_rejects_nonpositive data Hh).
  - intros H1 H2. pose proof (bmi_calc_returns data H1 H2) as Hr.
    fold h_m in Hr. fold q in Hr. fold answer in Hr.
    split; [done|]. unfold post_api_bmi. rewrite Hr. cbn [bmi answer].
    split; intros ->; done.
Qed.

(** C1, as stated, fails: the smallest positive float is a height greater
    than 0, yet the request is rejected with 400, because in metres it is
    [0.0]. *)
Lemma bmi_calc_rejects_tiny_height :
  (0 <? 5e-324) = true /\ (5e-324 <=? 0) = false /\
  bmi_calc {| height_cm := 5e-324; weight_kg := 70 |} = rejected /\
  status (bmi_calc {| height_cm := 5e-324; weight_kg := 70 |}) = 400%Z /\
  post_api_bmi {| height_cm := 5e-324; weight_kg := 70 |} = rejected.
Proof. repeat split; reflexivity. Qed.

(** C10: no weight is validated, but a request with a positive height can
    fail: at [height_cm = 1e-160] the height in metres, [1e-162], passes the
    guard, its square underflows to [0.0], and the division raises
    [ZeroDivisionError], which the client sees as a 500. *)
Theorem bmi_calc_negative_weight_underflow :
  (0 <? 1e-160) = true /\
  bmi_calc {| height_cm := 1e-160; weight_kg := -70 |} = Raises ZeroDivisionError /\
  status (bmi_calc {| height_cm := 1e-160; weight_kg := -70 |}) = 500%Z.
Proof. repeat split; reflexivity. Qed.
End BMI.

(** ** Contact messages *)

Section Contact.
Context {Store : Type} `{!Gateway Store}.

(** C6: without a store the message is accepted and reported as not
    stored (a 200, never a 5xx); with a store, a successful insert is
    answered with the identifier and [stored: true]; an insert that raises
    is a 500 carrying the message of the exception. *)
Theorem send_contact_cases (payload : ContactMessageModel.t) (db : option Store) :
  (db = None ->
     send_contact payload db
     = (Returns {| contact_ok := true; contact_id := None; contact_stored := false |}, None)
     /\ (status (fst (send_contact payload db)) < 500)%Z) /\
  (forall s s' _id,
     db = Some s ->
     create_document s (py "contactmessage") (OfContactMessage payload) = (s', Done _id) ->
     send_contact payload db
     = (Returns {| contact_ok := true; contact_id := Some _id; contact_stored := true |},
        Some s')) /\
  (forall s s' str_e,
     db = Some s ->
     create_document s (py "contactmessage") (OfContactMessage payload) = (s', Failed str_e) ->
     send_contact payload db = (Raises (HTTPException 500 str_e), Some s')
     /\ status (fst (send_contact payload db)) = 500%Z).
Proof.
  split; [|split].
  - intros ->. split; [reflexivity|]. simpl. lia.
  - intros s s' _id -> Hc. unfold send_contact. by rewrite Hc.
  - intros s s' e -> Hc. unfold send_contact. by rewrite Hc.
Qed.
End Contact.

(** ** The diagnostic probe *)

Section Probe.
Context {Store : Type} `{!Gateway Store}.

(** C7: the probe always returns its status object: without a store, with
    a working store (at most 10 collection names are reported), and with a
    store whose call raises (the status string carries at most the first 50
    characters of the error text). *)
Theorem test_database_never_raises (environ : Environ) (db : option Store) :
  exists r db',
    test_database environ db = (Returns r, db') /\
    backend r = py "✅ Running" /\
    (length (collections r) <= 10)%nat /\
    match db with
    | None =>
        database r = py "⚠️  Available but not initialized" /\ collections r = []
    | Some s =>
        match snd (list_collection_names s) with
        | Done names =>
            database r = py "✅ Connected & Working" /\ collections r = take 10 names
        | Failed str_e =>
            exists text,
              database r = py "⚠️  Connected but Error: " ++ text /\
              text = take 50 str_e /\ (length text <= 50)%nat /\
              collections r = []
        end
    end.
Proof.
  destruct db as [s|]; simpl.
  - destruct (list_collection_names s) as [s' [names|e]]; simpl.
    + eexists _, _. split; [reflexivity|]. simpl.
      repeat split. rewrite length_take. lia.
    + eexists _, _. split; [reflexivity|]. simpl.
      repeat split; [lia|]. eexists. repeat split. rewrite length_take. lia.
  - eexists _, _. split; [reflexivity|]. simpl. repeat split. lia.
Qed.
End Probe.

(** ** The list endpoints *)

Section Lists.
Context {Store : Type} `{!Gateway Store}.

Lemma testimonial_dict_rating (i : Doc) :
  td_rating (testimonial_dict i)
  = match i !! py "rating" with Some v => v | None => VInt 5 end.
Proof. unfold testimonial_dict, get_or; simpl. by destruct (i !! _). Qed.

End Lists.

(** ** Collections *)

Section Collections.
Context {Store : Type} (G : Gateway Store).

(** C9: every handler that touches the store makes exactly one access, on
    the collection named after the lowercased class of its entity:
    testimonials are inserted into and fetched from ["testimonial"],
    contact messages are inserted into ["contactmessage"], before/after
    cases are fetched from ["beforeafter"]; without a store nothing is
    accessed. *)
Theorem store_accesses_by_collection
    (t : TestimonialModel.t) (m : ContactMessageModel.t) (limit : option Z)
    (environ : Environ) (s : Store) :
  (collection_name Testimonial = py "testimonial" /\
   collection_name ContactMessage = py "contactmessage" /\
   collection_name BeforeAfter = py "beforeafter") /\
  accesses (@create_testimonial _ (traced G) t) (Some s)
    = [Insert (collection_name Testimonial) (OfTestimonial t)] /\
  accesses (@get_testimonials _ (traced G) limit) (Some s)
    = [Fetch (collection_name Testimonial) (Some (default 12%Z limit))] /\
  accesses (@send_contact _ (traced G) m) (Some s)
    = [Insert (collection_name ContactMessage) (OfContactMessage m)] /\
  accesses (@get_before_after _ (traced G) limit) (Some s)
    = [Fetch (collection_name BeforeAfter) (Some (default 12%Z limit))] /\
  accesses (@list_surgeries _ (traced G)) (Some s)
    = [Fetch (collection_name Surgery) None] /\
  accesses (@test_database _ (traced G) environ) (Some s) = [ListNames] /\
  (accesses (@create_testimonial _ (traced G) t) None = [] /\
   accesses (@get_testimonials _ (traced G) limit) None = [] /\
   accesses (@send_contact _ (traced G) m) None = [] /\
   accesses (@get_before_after _ (traced G) limit) None = [] /\
   accesses (@list_surgeries _ (traced G)) None = [] /\
   accesses (@test_database _ (traced G) environ) None = []).
Proof.
  split; [by vm_compute|].
  change (collection_name Testimonial) with (py "testimonial").
  change (collection_name ContactMessage) with (py "contactmessage").
  change (collection_name BeforeAfter) with (py "beforeafter").
  change (collection_name Surgery) with (py "surgery").
  unfold accesses, create_testimonial, get_testimonials, send_contact,
    get_before_after, list_surgeries, test_database; cbn [fmap option_fmap option_map].
  cbn [get_documents create_document list_collection_names traced].
  repeat split.
  - by destruct (create_document s _ _) as [s' [?|?]].
  - by destruct (get_documents s _ _) as [s' [?|?]].
  - by destruct (create_document s _ _) as [s' [?|?]].
  - by destruct (get_documents s _ _) as [s' [?|?]].
  - destruct (get_documents s _ _) as [s' [docs|?]]; [|done]. by destruct docs.
  - by destruct (list_collection_names s) as [s' [?|?]].
Qed.
End Collections.

(** ** The list of surgeries *)

Section Surgeries.
Context `{Pydantic} {Store : Type} `{!Gateway Store}.

Lemma validate_surgery (n t d : string) :
  SurgeryResponse.validate (surgery n t d)
  = Some (SurgeryModel.Build_t (py n) (py t) (Some (py d))).
Proof.
  unfold SurgeryResponse.validate, surgery. cbn [sd_name sd_type sd_description].
  by rewrite !validate_str_VStr.
Qed.

Lemma default_surgeries_valid :
  exists l,
    mapM SurgeryResponse.validate default_surgeries = Some l /\
    SurgeryModel.type <$> l
    = [py "bariatric"; py "bariatric"; py "bariatric";
       py "general"; py "general"; py "general"].
Proof.
  unfold default_surgeries. cbn [mapM]. rewrite !validate_surgery.
  eexists. split; reflexivity.
Qed.

(** C3 as amended: the handler itself never raises: without a store,
    when the read raises and when it yields no document it returns the six
    defaults (three bariatric, then three general), and otherwise the
    fetched documents projected to name, type and description.  The
    endpoint returns that list when the response model accepts it, which it
    always does for the defaults; a projected document that is no valid
    [Surgery] fails the response validation. *)
Theorem list_surgeries_fallback (db : option Store) :
  let read := (fun s => snd (get_documents s (py "surgery") None)) <$> db in
  let items :=
    match read with
    | Some (Done (d :: docs)) => surgery_dict <$> d :: docs
    | None | Some (Failed _) | Some (Done []) => default_surgeries
    end in
  fst (list_surgeries db) = Returns items /\
  fst (get_api_surgeries db)
  = match mapM SurgeryResponse.validate items with
    | Some l => Returns l
    | None => Raises ResponseValidationError
    end /\
  (items = default_surgeries -> exists l, fst (get_api_surgeries db) = Returns l) /\
  length default_surgeries = 6%nat /\
  sd_type <$> default_surgeries
  = VStr <$> [py "bariatric"; py "bariatric"; py "bariatric";
              py "general"; py "general"; py "general"].
Proof.
  intros read items.
  assert (fst (list_surgeries db) = Returns items) as Hh.
  { subst items read. destruct db as [s|]; [|done]. cbn.
    by destruct (get_documents s _ _) as [s' [[|d docs]|e]]. }
  assert (fst (get_api_surgeries db)
          = match mapM SurgeryResponse.validate items with
            | Some l => Returns l
            | None => Raises ResponseValidationError
            end) as He.
  { unfold get_api_surgeries. destruct (list_surgeries db) as [o db'].
    simpl in Hh. subst o. by destruct (mapM _ items). }
  split; [done|]. split; [done|]. split; [|split; reflexivity].
  intros E. rewrite He, E.
  destruct default_surgeries_valid as (l & -> & _). by exists l.
Qed.
End Surgeries.

(** C3, as stated, fails: a store whose surgery collection holds a document
    without a name makes the endpoint fail (the projected name is [None],
    which the response model [Surgery] rejects), although the handler
    returned a list. *)
Lemma surgeries_nameless_document :
  fst (@list_surgeries _ (canned [nameless]) (Some ()))
  = Returns [ {| sd_name := VNone; sd_type := VStr (py "general"); sd_description := VNone |} ] /\
  fst (@get_api_surgeries strict _ (canned [nameless]) (Some ()))
  = Raises ResponseValidationError /\
  status (fst (@get_api_surgeries strict _ (canned [nameless]) (Some ()))) = 500%Z.
Proof. by vm_compute. Qed.

Lemma list_surgeries_fallback_witness :
  fst (@get_api_surgeries strict _ (canned []) (Some ()))
  = fst (@get_api_surgeries strict _ (broken (py "timed out")) (Some ())) /\
  (exists l, fst (@get_api_surgeries strict _ (canned []) None) = Returns l) /\
  fst (@list_surgeries _ (canned [hernia]) (Some ()))
  = Returns [ {| sd_name := VStr (py "Hernia repair"); sd_type := VStr (py "general");
                 sd_description := VNone |} ].
Proof.
  pose proof (@list_surgeries_fallback strict _ (canned []) (Some ())) as (_ & H1 & _).
  pose proof (@list_surgeries_fallback strict _ (broken (py "timed out")) (Some ()))
    as (_ & H2 & _).
  pose proof (@list_surgeries_fallback strict _ (canned []) None) as (_ & _ & H3 & _).
  pose proof (@list_surgeries_fallback strict _ (canned [hernia]) (Some ())) as (H4 & _).
  split; [|split].
  - rewrite H1, H2. reflexivity.
  - apply H3. reflexivity.
  - rewrite H4. by vm_compute.
Defined.

(** ** Testimonials *)

Section Testimonials.
Context `{P : Pydantic} {Store : Type} (G : Gateway Store).

Lemma validate_rating_out_of_range (body : Doc) (r : Z) :
  defaulted validate_int 5%Z body (py "rating") = Some r ->
  (r < 1 \/ 5 < r)%Z ->
  TestimonialModel.validate body = None.
Proof.
  intros Hr Hout. unfold TestimonialModel.validate. rewrite Hr.
  destruct (required validate_str body (py "name")) as [n|]; cbn; [|done].
  destruct (optional validate_str body (py "procedure")) as [p|]; cbn; [|done].
  rewrite option_guard_False; [done|].
  unfold TestimonialModel.rating_ok. intros [? ?]%andb_true_iff. lia.
Qed.

Lemma validate_submitted (body : Doc) (p : TestimonialModel.t) :
  TestimonialModel.validate body = Some p ->
  submitted body p /\ (1 <= TestimonialModel.rating p <= 5)%Z.
Proof.
  unfold TestimonialModel.validate, required, optional, defaulted. intros Hv.
  destruct (body !! py "name") as [vn|] eqn:En; [|done]. cbn in Hv.
  destruct (validate_str vn) as [n|] eqn:Evn; [|done]. cbn in Hv.
  destruct (match body !! py "procedure" with
            | Some VNone | None => Some None
            | Some v => Some <$> validate_str v
            end) as [pr|] eqn:Ep; [|done]. cbn in Hv.
  destruct (match body !! py "rating" with
            | Some v => validate_int v
            | None => Some 5%Z
            end) as [r|] eqn:Er; [|done]. cbn in Hv.
  case_guard as Hok; [|done]. cbn in Hv.
  destruct (body !! py "text") as [vx|] eqn:Ex; [|done]. cbn in Hv.
  destruct (validate_str vx) as [x|] eqn:Evx; [|done]. cbn in Hv.
  destruct (match body !! py "city" with
            | Some VNone | None => Some None
            | Some v => Some <$> validate_str v
            end) as [c|] eqn:Ec; [|done]. cbn in Hv.
  injection Hv as <-. unfold submitted; cbn.
  split; [|unfold TestimonialModel.rating_ok in Hok;
           apply andb_true_iff in Hok as [? ?]; lia].
  repeat apply conj.
  - intros v Hb. rewrite Hb in En. injection En as <-.
    rewrite validate_str_VStr in Evn. congruence.
  - intros v Hb. rewrite Hb in Ex. injection Ex as <-.
    rewrite validate_str_VStr in Evx. congruence.
  - intros v Hb. rewrite Hb, validate_int_VInt in Er. congruence.
  - intros Hb. rewrite Hb in Er. congruence.
  - intros v Hb. rewrite Hb, validate_str_VStr in Ep. cbn in Ep. congruence.
  - intros Hb. rewrite Hb in Ep. congruence.
  - intros v Hb. rewrite Hb, validate_str_VStr in Ec. cbn in Ec. congruence.
  - intros Hb. rewrite Hb in Ec. congruence.
Qed.

(** C4 as amended: a rating outside 1..5 is rejected with a client
    error before the handler runs, so without any store access and
    whatever the store; a valid payload is answered with a 500 when no store
    is configured; with a store the insert is attempted, and answered with
    the identifier and [ok: true] when it succeeds and with a 500 carrying
    the message when it raises. *)
Theorem create_testimonial_cases (body : Doc) (db : option Store) :
  (forall r,
     defaulted validate_int 5%Z body (py "rating") = Some r -> (r < 1 \/ 5 < r)%Z ->
     post_api_testimonials body db = (Raises RequestValidationError, db) /\
     (400 <= status (fst (post_api_testimonials body db)) < 500)%Z /\
     accesses (@post_api_testimonials _ _ (traced G) body) db = []) /\
  (forall payload,
     TestimonialModel.validate body = Some payload -> db = None ->
     post_api_testimonials body db
     = (Raises (HTTPException 500 (py "Database not available")), None) /\
     (500 <= status (fst (post_api_testimonials body db)))%Z) /\
  (forall payload s s' _id,
     TestimonialModel.validate body = Some payload -> db = Some s ->
     create_document s (py "testimonial") (OfTestimonial payload) = (s', Done _id) ->
     post_api_testimonials body db
     = (Returns {| created_id := _id; created_ok := true |}, Some s')) /\
  (forall payload s s' str_e,
     TestimonialModel.validate body = Some payload -> db = Some s ->
     create_document s (py "testimonial") (OfTestimonial payload) = (s', Failed str_e) ->
     post_api_testimonials body db = (Raises (HTTPException 500 str_e), Some s')).
Proof.
  split; [|split; [|split]].
  - intros r Hr Hout. unfold accesses, post_api_testimonials.
    rewrite (validate_rating_out_of_range body r Hr Hout). cbn.
    split; [done|]. split; [lia|]. by destruct db.
  - intros payload Hv ->. unfold post_api_testimonials. rewrite Hv. cbn.
    split; [done|lia].
  - intros payload s s' _id Hv -> Hc. unfold post_api_testimonials, create_testimonial.
    by rewrite Hv, Hc.
  - intros payload s s' e Hv -> Hc. unfold post_api_testimonials, create_testimonial.
    by rewrite Hv, Hc.
Qed.
End Testimonials.

(** C4, as stated, fails: with a store whose insert raises, a valid
    payload is neither rejected as invalid, nor refused for want of a store,
    nor inserted: the answer is a 500 carrying the message of the exception. *)
Lemma create_testimonial_insert_raises :
  is_Some (@TestimonialModel.validate strict (review (Some 5%Z))) /\
  @post_api_testimonials strict _ (broken (py "connection refused"))
    (review (Some 5%Z)) (Some ())
  = (Raises (HTTPException 500 (py "connection refused")), Some ()).
Proof. split; [|by vm_compute]. eexists. by vm_compute. Qed.

Lemma create_testimonial_cases_witness :
  (@post_api_testimonials strict _ (canned []) (review (Some 6%Z)) None
   = (Raises RequestValidationError, None) /\
   @post_api_testimonials strict _ (canned []) (review (Some 6%Z)) (Some ())
   = (Raises RequestValidationError, Some ())) /\
  @post_api_testimonials strict _ (canned []) (review (Some 5%Z)) None
  = (Raises (HTTPException 500 (py "Database not available")), None) /\
  @post_api_testimonials strict _ (canned []) (review None) (Some ())
  = (Returns {| created_id := py "1"; created_ok := true |}, Some ()) /\
  @post_api_testimonials strict _ (broken (py "connection refused"))
    (review (Some 1%Z)) (Some ())
  = (Raises (HTTPException 500 (py "connection refused")), Some ()).
Proof.
  assert (forall Store (G : Gateway Store) db,
            @post_api_testimonials strict _ G (review (Some 6%Z)) db
            = (Raises RequestValidationError, db)) as H6.
  { intros Store G db.
    apply (@create_testimonial_cases strict _ G (review (Some 6%Z)) db) with (r := 6%Z);
      [by vm_compute|lia]. }
  split; [split; apply H6|]. split; [|split].
  - eapply (@create_testimonial_cases strict _ (canned []) (review (Some 5%Z)) None);
      [by vm_compute|done].
  - eapply (@create_testimonial_cases strict _ (canned []) (review None) (Some ()));
      [by vm_compute|done|done].
  - eapply (@create_testimonial_cases strict _ (broken (py "connection refused"))
              (review (Some 1%Z)) (Some ())); [by vm_compute|done|done].
Defined.

(** ** Creating, then listing *)

Section RoundTrip.
Context `{P : Pydantic}.

Lemma testimonial_dict_model_dump (p : TestimonialModel.t) :
  testimonial_dict (model_dump (OfTestimonial p)) = listed p.
Proof. by vm_compute. Qed.

Lemma records_insert (st : SpecStore) (collection : pystr) (data : Model) :
  unusable st = None ->
  records (fst (spec_insert st collection data)) collection
  = records st collection ++ [model_dump data].
Proof.
  intros Hu. unfold spec_insert, records. rewrite Hu. cbn.
  by rewrite lookup_insert_eq.
Qed.

(** C8: on a usable store that follows the specification, a
    testimonial accepted by the create endpoint is in the next list of
    testimonials whenever the limit reaches past the documents stored
    before it; its entry carries the submitted name, procedure, rating, text
    and city, and rating 5 when none was submitted. *)
Theorem testimonial_round_trip (body : Doc) (st : SpecStore) (limit : option Z) :
  is_Some (TestimonialModel.validate body) ->
  unusable st = None ->
  (length (records st (py "testimonial")) < Z.to_nat (default 12%Z limit))%nat ->
  exists payload _id st',
    @post_api_testimonials _ _ spec_gateway body (Some st)
    = (Returns {| created_id := _id; created_ok := true |}, Some st') /\
    submitted body payload /\
    exists items,
      @get_testimonials _ spec_gateway limit (Some st') = (Returns items, Some st') /\
      listed payload ∈ items /\
      (body !! py "rating" = None -> td_rating (listed payload) = VInt 5).
Proof.
  intros [payload Hv] Hu Hlen.
  destruct (validate_submitted body payload Hv) as [Hs _].
  pose proof (records_insert st (py "testimonial") (OfTestimonial payload) Hu) as Hr.
  unfold post_api_testimonials, create_testimonial, get_testimonials.
  rewrite Hv. cbn [create_document get_documents spec_gateway].
  destruct (spec_insert st (py "testimonial") (OfTestimonial payload))
    as [st' r] eqn:Ei.
  assert (unusable st' = None /\ exists _id, r = Done _id) as [Hu' [_id ->]].
  { unfold spec_insert in Ei. rewrite Hu in Ei. injection Ei as <- <-. eauto. }
  cbn [fst] in Hr.
  exists payload, _id, st'. split; [done|]. split; [done|].
  unfold spec_fetch. rewrite Hu', Hr.
  eexists. split; [reflexivity|]. split.
  - apply list_elem_of_fmap. exists (model_dump (OfTestimonial payload)).
    split; [by rewrite testimonial_dict_model_dump|].
    apply (list_elem_of_lookup_2 _ (length (records st (py "testimonial")))).
    rewrite lookup_take_lt by done.
    by rewrite list_lookup_middle.
  - intros Hb. cbn. f_equal. by apply Hs.
Qed.
End RoundTrip.

(** ** The theorems at sample requests *)

Lemma bmi_calc_cases_witness :
  (post_api_bmi {| height_cm := 170; weight_kg := 70 |}
   = Returns {| bmi := 24.2; category := normal |} /\
   status (post_api_bmi {| height_cm := 170; weight_kg := 70 |}) = 200%Z) /\
  (post_api_bmi {| height_cm := 1; weight_kg := 1e305 |} = Raises ValueError /\
   status (post_api_bmi {| height_cm := 1; weight_kg := 1e305 |}) = 500%Z) /\
  post_api_bmi {| height_cm := 0; weight_kg := 70 |} = rejected /\
  post_api_bmi {| height_cm := -170; weight_kg := 0 |} = rejected.
Proof.
  pose proof (bmi_calc_cases {| height_cm := 170; weight_kg := 70 |}) as (_ & _ & H1).
  pose proof (bmi_calc_cases {| height_cm := 1; weight_kg := 1e305 |}) as (_ & _ & H2).
  pose proof (bmi_calc_cases {| height_cm := 0; weight_kg := 70 |}) as (_ & H3 & _).
  pose proof (bmi_calc_cases {| height_cm := -170; weight_kg := 0 |}) as (_ & H4 & _).
  split; [|split; [|split]].
  - exact (proj1 (proj2 (H1 eq_refl eq_refl)) eq_refl).
  - exact (proj2 (proj2 (H2 eq_refl eq_refl)) eq_refl).
  - exact (proj1 (H3 eq_refl)).
  - exact (proj1 (H4 eq_refl)).
Defined.

Lemma testimonial_round_trip_witness :
  exists payload _id st',
    @post_api_testimonials strict _ spec_gateway (review None) (Some empty_store)
    = (Returns {| created_id := _id; created_ok := true |}, Some st') /\
    submitted (review None) payload /\
    exists items,
      @get_testimonials _ spec_gateway None (Some st') = (Returns items, Some st') /\
      listed payload ∈ items /\
      ((review None : Doc) !! py "rating" = None -> td_rating (listed payload) = VInt 5).
Proof.
  apply (@testimonial_round_trip strict (review None) empty_store None).
  - eexists. by vm_compute.
  - reflexivity.
  - vm_compute. lia.
Defined.


Lemma send_contact_cases_witness :
  @send_contact _ (canned []) enquiry None
  = (Returns {| contact_ok := true; contact_id := None; contact_stored := false |}, None) /\
  @send_contact _ (canned []) enquiry (Some ())
  = (Returns {| contact_ok := true; contact_id := Some (py "1"); contact_stored := true |},
     Some ()) /\
  @send_contact _ (broken (py "timed out")) enquiry (Some ())
  = (Raises (HTTPException 500 (py "timed out")), Some ()).
Proof.
  pose proof (@send_contact_cases _ (canned []) enquiry None) as (H1 & _).
  pose proof (@send_contact_cases _ (canned []) enquiry (Some ())) as (_ & H2 & _).
  pose proof (@send_contact_cases _ (broken (py "timed out")) enquiry (Some ()))
    as (_ & _ & H3).
  split; [|split].
  - exact (proj1 (H1 eq_refl)).
  - exact (H2 () () _ eq_refl eq_refl).
  - exact (proj1 (H3 () () _ eq_refl eq_refl)).
Defined.

Lemma test_database_never_raises_witness :
  exists r,
    fst (@test_database _ (broken (py "ServerSelectionTimeoutError: localhost:27017: [Errno 111] Connection refused")) ∅ (Some ()))
    = Returns r /\
    database r = py "⚠️  Connected but Error: ServerSelectionTimeoutError: localhost:27017: [Err" /\
    collections r = [].
Proof.
  destruct (@test_database_never_raises _
              (broken (py "ServerSelectionTimeoutError: localhost:27017: [Errno 111] Connection refused"))
              ∅ (Some ())) as (r & db' & Hr & _ & _ & text & Hd & -> & _ & Hc).
  exists r. rewrite Hr. split; [done|]. split; [|done]. rewrite Hd. by vm_compute.
Defined.


(** * Further properties of the handlers *)

(** ** The BMI scale *)

Section Scale.
Local Open Scope float_scope.

Lemma SFleb_ltb_trans (x y z : spec_float) :
  SFleb x y = true -> SFltb y z = true -> SFltb x z = true.
Proof.
  unfold SFltb, SFleb.
  destruct x as [[]|[]| |[] m1 e1], y as [[]|[]| |[] m2 e2], z as [[]|[]| |[] m3 e3];
    simpl; try (reflexivity || discriminate); intros H1 H2; cmp_cases.
Qed.

Lemma leb_ltb_trans (x y z : float) :
  (x <=? y) = true -> (y <? z) = true -> (x <? z) = true.
Proof. rewrite leb_spec, !ltb_spec. apply SFleb_ltb_trans. Qed.

Ltac at_positions i j :=
  exists i, j; split; [reflexivity|split; [reflexivity|lia]].

(** X1: the category never moves down the scale when the bmi grows: for
    [x <= y] the label of [x] is at the same position of [labels] as the label
    of [y], or at an earlier one. *)
Theorem bmi_category_monotone (x y : float) :
  (x <=? y) = true ->
  exists i j : nat,
    labels !! i = Some (_bmi_category x) /\
    labels !! j = Some (_bmi_category y) /\
    (i <= j)%nat.
Proof.
  intros Hxy.
  pose proof (leb_ltb_trans x y 18.5 Hxy) as M1.
  pose proof (leb_ltb_trans x y 25 Hxy) as M2.
  pose proof (leb_ltb_trans x y 30 Hxy) as M3.
  pose proof (leb_ltb_trans x y 35 Hxy) as M4.
  pose proof (leb_ltb_trans x y 40 Hxy) as M5.
  pose proof (ltb_trans x 18.5 25) as T1. pose proof (ltb_trans x 25 30) as T2.
  pose proof (ltb_trans x 30 35) as T3. pose proof (ltb_trans x 35 40) as T4.
  specialize (fun H => T1 H eq_refl). specialize (fun H => T2 H eq_refl).
  specialize (fun H => T3 H eq_refl). specialize (fun H => T4 H eq_refl).
  unfold _bmi_category, labels.
  generalize underweight normal overweight obesity_I obesity_II obesity_III.
  intros l1 l2 l3 l4 l5 l6.
  destruct (y <? 18.5); [rewrite (M1 eq_refl); at_positions 0%nat 0%nat|clear M1].
  destruct (y <? 25).
  { rewrite (M2 eq_refl). destruct (x <? 18.5);
      [at_positions 0%nat 1%nat|at_positions 1%nat 1%nat]. }
  clear M2. destruct (y <? 30).
  { rewrite (M3 eq_refl). destruct (x <? 18.5); [at_positions 0%nat 2%nat|].
    destruct (x <? 25); [at_positions 1%nat 2%nat|at_positions 2%nat 2%nat]. }
  clear M3. destruct (y <? 35).
  { rewrite (M4 eq_refl). destruct (x <? 18.5); [at_positions 0%nat 3%nat|].
    destruct (x <? 25); [at_positions 1%nat 3%nat|].
    destruct (x <? 30); [at_positions 2%nat 3%nat|at_positions 3%nat 3%nat]. }
  clear M4. destruct (y <? 40).
  { rewrite (M5 eq_refl). destruct (x <? 18.5); [at_positions 0%nat 4%nat|].
    destruct (x <? 25); [at_positions 1%nat 4%nat|].
    destruct (x <? 30); [at_positions 2%nat 4%nat|].
    destruct (x <? 35); [at_positions 3%nat 4%nat|at_positions 4%nat 4%nat]. }
  clear M5. destruct (x <? 18.5); [at_positions 0%nat 5%nat|].
  destruct (x <? 25); [at_positions 1%nat 5%nat|].
  destruct (x <? 30); [at_positions 2%nat 5%nat|].
  destruct (x <? 35); [at_positions 3%nat 5%nat|].
  destruct (x <? 40); [at_positions 4%nat 5%nat|at_positions 5%nat 5%nat].
Qed.

(** X2: a height that is not a number is not rejected: the guard
    [h_m <= 0] is false for NaN, the division goes through, and the answer is
    a NaN bmi in the last category, whatever the weight. *)
Theorem bmi_calc_nan_height (data : BMIQuery) :
  Prim2SF (height_cm data) = S754_nan ->
  exists r,
    bmi_calc data = Returns r /\
    Prim2SF (bmi r) = S754_nan /\
    category r = obesity_III.
Proof.
  intros Hh.
  assert (Prim2SF (height_cm data / 100) = S754_nan) as Hm.
  { by rewrite div_spec, Hh. }
  set (h_m := height_cm data / 100) in *.
  assert (Prim2SF (h_m * h_m) = S754_nan) as Hd by (by rewrite mul_spec, Hm).
  assert (Prim2SF (weight_kg data / (h_m * h_m)) = S754_nan) as Hq.
  { rewrite div_spec, Hd. by destruct (Prim2SF (weight_kg data)). }
  set (q := weight_kg data / (h_m * h_m)) in *.
  exists {| bmi := round1 q; category := _bmi_category q |}.
  split; [|split].
  - apply bmi_calc_returns; fold h_m.
    + by rewrite leb_spec, Hm.
    + by rewrite FloatAxioms.eqb_spec, Hd.
  - change (Prim2SF (round1 q) = S754_nan). unfold round1. by rewrite !Hq.
  - change (_bmi_category q = obesity_III). unfold _bmi_category.
    by rewrite !ltb_spec, Hq.
Qed.

(** X3: the category is that of the quotient before rounding, so the
    answer need not agree with itself: a quotient of 24.96 is returned as
    bmi 25.0 with the label of the band below 25. *)
Theorem bmi_category_of_unrounded :
  ~ (forall data r, bmi_calc data = Returns r -> category r = _bmi_category (bmi r)).
Proof.
  intros Hall.
  specialize (Hall {| height_cm := 100; weight_kg := 24.96 |}
                   {| bmi := 25; category := normal |} eq_refl).
  vm_compute in Hall. discriminate Hall.
Qed.
End Scale.

Lemma bmi_category_monotone_witness :
  exists i j : nat,
    labels !! i = Some (_bmi_category 17.9%float) /\
    labels !! j = Some (_bmi_category 31.5%float) /\
    (i <= j)%nat.
Proof. apply bmi_category_monotone. reflexivity. Defined.

Lemma bmi_calc_nan_height_witness :
  exists r,
    bmi_calc {| height_cm := nan; weight_kg := 70 |} = Returns r /\
    Prim2SF (bmi r) = S754_nan /\
    category r = obesity_III.
Proof. apply bmi_calc_nan_height. reflexivity. Defined.

Lemma bmi_calc_negative_weight_witness :
  bmi_calc {| height_cm := 170; weight_kg := -70 |}
  = Returns {| bmi := (-24.2)%float; category := underweight |} /\
  (-70 / (170 / 100 * (170 / 100)) <=? 0)%float = true.
Proof.
  pose proof (bmi_calc_negative_weight {| height_cm := 170; weight_kg := -70 |}
                eq_refl eq_refl eq_refl eq_refl eq_refl) as (H1 & H2 & _).
  split; [|exact H2]. rewrite H1. reflexivity.
Defined.

(** ** What the list of surgeries holds *)

Section SurgeryList.
Context `{P : Pydantic} {Store : Type} `{!Gateway Store}.

Lemma validate_reads_as (d : Doc) (m : SurgeryModel.t) :
  reads_as d m -> SurgeryResponse.validate (surgery_dict d) = Some m.
Proof.
  intros (Hn & Ht & Hd). destruct m as [n t x]; cbn in *.
  unfold SurgeryResponse.validate, surgery_dict, get; cbn.
  rewrite Hn, Ht; cbn. rewrite !validate_str_VStr; cbn.
  fold (get d (py "description")). rewrite Hd.
  destruct x as [x|]; cbn; [|done]. by rewrite validate_str_VStr.
Qed.

Lemma validate_lacks (d : Doc) :
  lacks d (py "name") \/ lacks d (py "type") ->
  SurgeryResponse.validate (surgery_dict d) = None.
Proof.
  unfold SurgeryResponse.validate, surgery_dict, get, lacks; cbn.
  intros [[H|H]|[H|H]]; rewrite H; cbn; rewrite ?validate_str_VNone; try done.
  all: by destruct (validate_str _).
Qed.

(** X5: the list of surgeries is never empty, neither as the handler
    returns it nor as the endpoint serves it. *)
Theorem list_surgeries_never_empty (db : option Store) :
  (exists items, fst (list_surgeries db) = Returns items /\ items <> []) /\
  (forall l, fst (get_api_surgeries db) = Returns l -> l <> []).
Proof.
  assert (exists items, fst (list_surgeries db) = Returns items /\ items <> [])
    as (items & Hi & Hne).
  { destruct db as [s|]; cbn; [|by eexists].
    destruct (get_documents s _ _) as [s' [[|d docs]|e]]; cbn; by eexists. }
  split; [by exists items|].
  intros l. unfold get_api_surgeries.
  destruct (list_surgeries db) as [o db']; cbn in Hi. subst o.
  destruct (mapM _ items) as [k|] eqn:Ek; cbn; [|done].
  intros [= <-] ->. apply length_mapM in Ek. by destruct items.
Qed.

(** X6: when the store holds surgeries and each of them reads as a
    [Surgery], the endpoint serves exactly these, in the order of the store. *)
Theorem get_api_surgeries_stored
    (s s' : Store) (docs : list Doc) (l : list SurgeryModel.t) :
  get_documents s (py "surgery") None = (s', Done docs) ->
  docs <> [] ->
  Forall2 reads_as docs l ->
  get_api_surgeries (Some s) = (Returns l, Some s').
Proof.
  intros Hf Hne Hl. unfold get_api_surgeries, list_surgeries. rewrite Hf.
  assert (mapM SurgeryResponse.validate (surgery_dict <$> docs) = Some l) as Hm.
  { apply mapM_Some, Forall2_fmap_l.
    eapply Forall2_impl; [done|]. intros d m. apply validate_reads_as. }
  destruct docs as [|d docs]; [done|].
  cbn [fmap list_fmap] in *. by rewrite Hm.
Qed.

(** X7: one stored surgery without a name or without a type (absent, or
    [None]) is enough for the endpoint to fail, whatever else the store
    holds. *)
Theorem get_api_surgeries_incomplete (s s' : Store) (docs : list Doc) (d : Doc) :
  get_documents s (py "surgery") None = (s', Done docs) ->
  d ∈ docs ->
  lacks d (py "name") \/ lacks d (py "type") ->
  get_api_surgeries (Some s) = (Raises ResponseValidationError, Some s')
  /\ status (fst (get_api_surgeries (Some s))) = 500%Z.
Proof.
  intros Hf Hd Hl. unfold get_api_surgeries, list_surgeries. rewrite Hf.
  assert (mapM SurgeryResponse.validate (surgery_dict <$> docs) = None) as Hm.
  { apply mapM_None, Exists_fmap, Exists_exists. exists d. split; [done|].
    by apply validate_lacks. }
  destruct docs as [|d0 docs]; [by apply elem_of_nil in Hd|].
  cbn [fmap list_fmap] in *. by rewrite Hm.
Qed.
End SurgeryList.

Lemma get_api_surgeries_stored_witness :
  @get_api_surgeries strict _ (canned [hernia]) (Some ())
  = (Returns [ {| SurgeryModel.name := py "Hernia repair";
                  SurgeryModel.type := py "general";
                  SurgeryModel.description := None |} ], Some ()).
Proof.
  apply (@get_api_surgeries_stored strict _ (canned [hernia]) () () [hernia]);
    [reflexivity|done|].
  constructor; [|constructor]. by vm_compute.
Defined.

Lemma get_api_surgeries_incomplete_witness :
  @get_api_surgeries strict _ (canned [hernia; nameless]) (Some ())
  = (Raises ResponseValidationError, Some ()).
Proof.
  apply (@get_api_surgeries_incomplete strict _ (canned [hernia; nameless]) () ()
           [hernia; nameless] nameless); [reflexivity|set_solver|].
  left. left. by vm_compute.
Defined.

(** ** What reaches the store *)

Section Writes.
Context `{P : Pydantic} {Store : Type} (G : Gateway Store).

Lemma required_lacks (body : Doc) (key : pystr) :
  lacks body key -> required validate_str body key = None.
Proof. unfold required. intros [H|H]; rewrite H; cbn; [done|apply validate_str_VNone]. Qed.

(** X8: a testimonial without a name or without a text (absent, or
    [None]) is rejected with 422 whatever its other fields and whatever the
    store; the store is not accessed and is left as it was. *)
Theorem post_api_testimonials_required (body : Doc) (db : option Store) :
  lacks body (py "name") \/ lacks body (py "text") ->
  post_api_testimonials body db = (Raises RequestValidationError, db) /\
  status (fst (post_api_testimonials body db)) = 422%Z /\
  accesses (@post_api_testimonials _ _ (traced G) body) db = [].
Proof.
  intros Hl.
  assert (TestimonialModel.validate body = None) as Hv.
  { unfold TestimonialModel.validate. destruct Hl as [Hl|Hl].
    - by rewrite (required_lacks _ _ Hl).
    - rewrite (required_lacks _ _ Hl).
      destruct (required validate_str body (py "name")); cbn; [|done].
      destruct (optional validate_str body (py "procedure")); cbn; [|done].
      destruct (defaulted validate_int 5%Z body (py "rating")); cbn; [|done].
      by case_guard. }
  unfold accesses, post_api_testimonials. rewrite Hv. cbn.
  split; [done|]. split; [done|]. by destruct db.
Qed.

(** X9: whatever the body and the store, all the create endpoint ever
    hands to the store is one validated testimonial, for the collection
    ["testimonial"], with a rating between 1 and 5. *)
Theorem post_api_testimonials_writes (body : Doc) (db : option Store) (a : Access) :
  a ∈ accesses (@post_api_testimonials _ _ (traced G) body) db ->
  exists payload,
    TestimonialModel.validate body = Some payload /\
    a = Insert (py "testimonial") (OfTestimonial payload) /\
    (1 <= TestimonialModel.rating payload <= 5)%Z.
Proof.
  unfold accesses, post_api_testimonials.
  destruct (TestimonialModel.validate body) as [payload|] eqn:Hv.
  - destruct (validate_submitted body payload Hv) as [_ Hr].
    destruct db as [s|]; cbn; [|by intros ?%elem_of_nil].
    destruct (create_document s _ _) as [s' [_id|e]]; cbn.
    all: intros ->%list_elem_of_singleton; by exists payload.
  - destruct db as [s|]; cbn; by intros ?%elem_of_nil.
Qed.
End Writes.

Lemma post_api_testimonials_required_witness :
  @post_api_testimonials strict _ (canned []) (delete (py "text") (review (Some 5%Z))) (Some ())
  = (Raises RequestValidationError, Some ()).
Proof.
  apply (@post_api_testimonials_required strict _ (canned [])
           (delete (py "text") (review (Some 5%Z))) (Some ())).
  right. left. by vm_compute.
Defined.

Lemma post_api_testimonials_writes_witness :
  exists payload,
    @TestimonialModel.validate strict (review (Some 4%Z)) = Some payload /\
    (1 <= TestimonialModel.rating payload <= 5)%Z.
Proof.
  destruct (@post_api_testimonials_writes strict _ (canned []) (review (Some 4%Z)) (Some ())
              (Insert (py "testimonial")
                 (OfTestimonial
                    {| TestimonialModel.name := py "A. B.";
                       TestimonialModel.procedure := None;
                       TestimonialModel.rating := 4;
                       TestimonialModel.text := py "Thank you";
                       TestimonialModel.city := None |})))
    as (payload & Hv & _ & Hr).
  - apply list_elem_of_singleton. by vm_compute.
  - by exists payload.
Defined.

(** ** Status codes *)

Section Statuses.
Context {Store : Type} `{!Gateway Store}.

(** X10: a store that fails is never blamed on the client: whatever one
    of the four handlers that read or write documents raises is an
    [HTTPException] with status 500, never a 4xx. *)
Theorem handler_statuses
    (limit : option Z) (t : TestimonialModel.t) (m : ContactMessageModel.t)
    (db : option Store) (e : Raised) :
  fst (get_testimonials limit db) = Raises e \/
  fst (get_before_after limit db) = Raises e \/
  fst (create_testimonial t db) = Raises e \/
  fst (send_contact m db) = Raises e ->
  (exists detail, e = HTTPException 500 detail) /\
  status (@Raises ContactResult e) = 500%Z.
Proof.
  unfold get_testimonials, get_before_after, create_testimonial, send_contact.
  assert (forall detail, e = HTTPException 500 detail ->
            (exists detail, e = HTTPException 500 detail) /\
            status (@Raises ContactResult e) = 500%Z) as Hok.
  { intros detail ->. split; [by eexists|done]. }
  destruct db as [s|]; cbn [fst].
  - intros [H|[H|[H|H]]].
    + destruct (get_documents s _ _) as [s' [docs|d]]; [done|].
      injection H as <-. by eapply Hok.
    + destruct (get_documents s _ _) as [s' [docs|d]]; [done|].
      injection H as <-. by eapply Hok.
    + destruct (create_document s _ _) as [s' [_id|d]]; [done|].
      injection H as <-. by eapply Hok.
    + destruct (create_document s _ _) as [s' [_id|d]]; [done|].
      injection H as <-. by eapply Hok.
  - intros [H|[H|[H|H]]]; try done. injection H as <-. by eapply Hok.
Qed.

(** X11: whenever a contact message is answered, [ok] is true, and the
    three ways of telling whether it was kept agree: [stored] is true exactly
    when an identifier comes back, and exactly when a store is configured. *)
Theorem send_contact_answer
    (m : ContactMessageModel.t) (db db' : option Store) (r : ContactResult) :
  send_contact m db = (Returns r, db') ->
  contact_ok r = true /\
  (contact_stored r = true <-> is_Some (contact_id r)) /\
  (contact_stored r = true <-> is_Some db) /\
  (is_Some db' <-> is_Some db).
Proof.
  unfold send_contact. destruct db as [s|].
  - destruct (create_document s _ _) as [s' [_id|e]]; [|done].
    intros [= <- <-]. cbn. repeat split; eauto.
  - intros [= <- <-]. cbn. repeat split; try done; by intros [? ?].
Qed.
End Statuses.

Lemma handler_statuses_witness :
  (exists detail, HTTPException 500 (py "timed out") = HTTPException 500 detail) /\
  status (@Raises ContactResult (HTTPException 500 (py "timed out"))) = 500%Z.
Proof.
  apply (@handler_statuses _ (broken (py "timed out")) None
           {| TestimonialModel.name := py "A. B.";
              TestimonialModel.procedure := None;
              TestimonialModel.rating := 4;
              TestimonialModel.text := py "Thank you";
              TestimonialModel.city := None |}
           enquiry (Some ()) (HTTPException 500 (py "timed out"))).
  left. reflexivity.
Defined.

Lemma send_contact_answer_witness :
  let r := {| contact_ok := true; contact_id := Some (py "1"); contact_stored := true |} in
  contact_ok r = true /\
  (contact_stored r = true <-> is_Some (contact_id r)) /\
  (contact_stored r = true <-> is_Some (Some ())) /\
  (is_Some (Some ()) <-> is_Some (Some ())).
Proof.
  exact (@send_contact_answer _ (canned []) enquiry (Some ()) (Some ())
           {| contact_ok := true; contact_id := Some (py "1"); contact_stored := true |}
           eq_refl).
Defined.

(** ** What the probe tells *)

Section ProbeOutput.
Context {Store : Type} `{!Gateway Store}.

Lemma test_database_url (environ : Environ) (db : option Store) :
  exists r db',
    test_database environ db = (Returns r, db') /\
    (database_url r = None \/
     database_url r = Some (if truthy (environ !! py "DATABASE_URL")
                            then py "✅ Set" else py "❌ Not Set")).
Proof.
  unfold test_database. destruct db as [s|].
  - destruct (list_collection_names s) as [s' [names|e]];
      eexists _, _; (split; [reflexivity|]); by right.
  - eexists _, _. split; [reflexivity|]. by left.
Qed.

(** X12: the probe reads [DATABASE_URL] only as a truth value: with the
    same handle and the same behaviour of the store, two environments that
    agree on [DATABASE_NAME] and on whether [DATABASE_URL] is set to a
    non-empty value get the same answer, and the field [database_url] holds
    one of two fixed marks (or nothing, without a store).  What the store
    itself reports, its error text and its collection names, is passed on as
    it is. *)
Theorem test_database_hides_url (env1 env2 : Environ) (db : option Store) :
  truthy (env1 !! py "DATABASE_URL") = truthy (env2 !! py "DATABASE_URL") ->
  env1 !! py "DATABASE_NAME" = env2 !! py "DATABASE_NAME" ->
  test_database env1 db = test_database env2 db /\
  forall r db',
    test_database env1 db = (Returns r, db') ->
    database_url r ∈ [None; Some (py "✅ Set"); Some (py "❌ Not Set")].
Proof.
  intros Hu Hn. split.
  - unfold test_database. by rewrite Hu, Hn.
  - intros r db' Hr.
    destruct (test_database_url env1 db) as (r0 & db0 & Hr0 & H).
    rewrite Hr0 in Hr. injection Hr as <- _.
    destruct H as [-> | ->]; [apply list_elem_of_here|].
    apply list_elem_of_further.
    destruct (truthy _); [apply list_elem_of_here|].
    apply list_elem_of_further, list_elem_of_here.
Qed.
End ProbeOutput.

Lemma test_database_hides_url_witness :
  @test_database _ (canned []) {[ py "DATABASE_URL" := py "mongodb://admin:secret@db:27017" ]} (Some ())
  = @test_database _ (canned []) {[ py "DATABASE_URL" := py "x" ]} (Some ()).
Proof.
  apply (@test_database_hides_url _ (canned [])
           {[ py "DATABASE_URL" := py "mongodb://admin:secret@db:27017" ]}
           {[ py "DATABASE_URL" := py "x" ]} (Some ())); by vm_compute.
Defined.

(** ** Contact messages that are not valid *)

Section ContactBodies.
Context `{P : Pydantic} (validate_email : Value -> option pystr).
Context {Store : Type} (G : Gateway Store).

(** X13: accepting contact messages without a store does not extend to
    bodies that are not valid: without a name or a message (absent, or
    [None]), or with an e-mail address that the validator refuses, the answer
    is 422 with or without a store, and the store is not accessed. *)
Theorem post_api_contact_invalid (body : Doc) (db : option Store) :
  lacks body (py "name") \/ lacks body (py "message") \/
    (exists v, body !! py "email" = Some v /\ v <> VNone /\ validate_email v = None) ->
  post_api_contact validate_email body db = (Raises RequestValidationError, db) /\
  status (fst (post_api_contact validate_email body db)) = 422%Z /\
  accesses (@post_api_contact _ validate_email _ (traced G) body) db = [].
Proof.
  intros Hl.
  assert (validate_contact validate_email body = None) as Hv.
  { unfold validate_contact. destruct Hl as [Hl|[Hl|(v & Hb & Hv & He)]].
    - by rewrite (required_lacks _ _ Hl).
    - rewrite (required_lacks _ _ Hl).
      destruct (required validate_str body (py "name")); cbn; [|done].
      destruct (optional validate_email body (py "email")); cbn; [|done].
      by destruct (optional validate_str body (py "phone")).
    - destruct (required validate_str body (py "name")); cbn; [|done].
      assert (optional validate_email body (py "email") = None) as ->; [|done].
      unfold optional. rewrite Hb. destruct v; try done; by rewrite He. }
  unfold accesses, post_api_contact. rewrite Hv. cbn.
  split; [done|]. split; [done|]. by destruct db.
Qed.

(** X14: a valid contact message is accepted without a store, and with a
    store it is handed to it exactly once, for the collection
    ["contactmessage"]. *)
Theorem post_api_contact_valid
    (body : Doc) (payload : ContactMessageModel.t) (s : Store) :
  validate_contact validate_email body = Some payload ->
  post_api_contact validate_email body (None : option Store)
  = (Returns {| contact_ok := true; contact_id := None; contact_stored := false |}, None) /\
  accesses (@post_api_contact _ validate_email _ (traced G) body) (Some s)
  = [Insert (py "contactmessage") (OfContactMessage payload)].
Proof.
  intros Hv. unfold accesses, post_api_contact, send_contact. rewrite Hv.
  split; [done|]. cbn.
  by destruct (create_document s _ _) as [s' [_id|e]].
Qed.
End ContactBodies.

Lemma post_api_contact_invalid_witness :
  @post_api_contact strict strict_str _ (canned [])
    {[ py "name" := VStr (py "A. B.") ]} None
  = (Raises RequestValidationError, None).
Proof.
  apply (@post_api_contact_invalid strict strict_str _ (canned [])
           {[ py "name" := VStr (py "A. B.") ]} None).
  right. left. left. by vm_compute.
Defined.

Lemma post_api_contact_valid_witness :
  @post_api_contact strict strict_str _ (canned [])
    (<[py "name" := VStr (py "A. B.")]> {[ py "message" := VStr (py "Please call back") ]})
    None
  = (Returns {| contact_ok := true; contact_id := None; contact_stored := false |}, None).
Proof.
  apply (@post_api_contact_valid strict strict_str _ (canned [])
           (<[py "name" := VStr (py "A. B.")]>
              {[ py "message" := VStr (py "Please call back") ]})
           enquiry ()).
  by vm_compute.
Defined.
